(** * SACO AI Assistant: the front end's request pipeline

    A shallow embedding of the TypeScript sources of the front end:

    - [src/lib/api.ts]: the [AddressService] that posts an address query to
      the backend and reports progress to a listener;
    - [src/hooks/useAddressProcessor.ts]: the React hook that drives the
      service and keeps the processing state;
    - [src/app/page.tsx]: the page, its radius slider and the step shown by
      the loader;
    - [src/components/ui/amenities-bento-grid.tsx]: the category cards, their
      pagination and the category tables.

    Asynchronous code is written in a small monad [Async]: a computation
    takes the world (the backend behind [fetch] and the state of the client),
    and gives back the world after it, the effects it performed in order, and
    how it completed: normally with a value, or by throwing. *)

From Stdlib Require Import ZArith QArith List String Ascii Bool Lia DecimalString.
Import ListNotations.

Local Open Scope string_scope.
Local Open Scope Z_scope.
Local Open Scope list_scope.

(** ** JavaScript values used by the sources *)

Module Js.

(** What a [throw] carries, as far as the sources look at it:
    [error instanceof Error ? error.message : ...]. *)
Inductive Thrown : Type :=
| Error (message : string)
| NotAnError (shown : string).

(** Truthiness of an optional string: [undefined] and [''] are falsy. *)
Definition truthy (s : option string) : bool :=
  match s with
  | Some v => negb (String.eqb v EmptyString)
  | None => false
  end.

(** [a || b] on optional strings with a string default. *)
Definition or_else (s : option string) (dflt : string) : string :=
  match s with
  | Some v => if String.eqb v EmptyString then dflt else v
  | None => dflt
  end.

(** The message of [new Error(text)]: the text, empty when it is undefined. *)
Definition message_of (text : option string) : string :=
  match text with
  | Some v => v
  | None => EmptyString
  end.

(** [`${n}`] for an integer. *)
Definition string_of_number (n : Z) : string :=
  NilZero.string_of_int (Z.to_int n).

(** [Math.ceil(a / b)] for integers [a] and [b > 0]. *)
Definition ceil_div (a b : Z) : Z := - ((- a) / b).

(** [Array.prototype.slice(start, end)]: a negative index counts from the
    end, and both are clamped to the array. *)
Definition relative_index (k len : Z) : Z :=
  if k <? 0 then Z.max (len + k) 0 else Z.min k len.

Definition slice {A : Type} (l : list A) (start finish : Z) : list A :=
  let len := Z.of_nat (List.length l) in
  let from := relative_index start len in
  let upto := relative_index finish len in
  firstn (Z.to_nat (upto - from)) (skipn (Z.to_nat from) l).

(** [String.prototype.trim], on the ASCII white space. *)
Definition is_space (c : ascii) : bool :=
  match nat_of_ascii c with
  | 9%nat | 10%nat | 11%nat | 12%nat | 13%nat | 32%nat => true
  | _ => false
  end.

Fixpoint trim_start (s : string) : string :=
  match s with
  | String c rest => if is_space c then trim_start rest else s
  | EmptyString => EmptyString
  end.

Fixpoint rev_string (s acc : string) : string :=
  match s with
  | String c rest => rev_string rest (String c acc)
  | EmptyString => acc
  end.

Definition trim (s : string) : string :=
  rev_string (trim_start (rev_string (trim_start s) EmptyString)) EmptyString.

(** A default parameter value: [f(x = d)] takes [d] when [x] is undefined. *)
Definition default_arg {A : Type} (d : A) (x : option A) : A :=
  match x with
  | Some v => v
  | None => d
  end.

End Js.

(** ** [src/lib/api.ts]: the types

    A number read from JSON is a decimal fraction, so the measurements are
    rationals; the radius is a whole number of metres. *)

Module Coordinates.
Record t : Type := mk
  { latitude : Q;
    longitude : Q;
    address : string }.
End Coordinates.

Module Amenity.
Record t : Type := mk
  { name : string;
    amenity_type : string;
    distance : option Q;
    coordinates : option (Q * Q) }.   (* { lat, lon } *)
End Amenity.

(** [Record<string, Amenity[]>]: the entries in insertion order, as
    [Object.entries] lists them. *)
Definition AmenityRecord : Type := list (string * list Amenity.t).

Module AddressResponse.
Record t : Type := mk
  { success : bool;
    address : string;
    coordinates : option Coordinates.t;
    amenities : list Amenity.t;
    categorized_amenities : option AmenityRecord;
    result : option string;
    error : option string;
    radius_used : Z }.
End AddressResponse.

Module AddressRequest.
Record t : Type := mk
  { address : string;
    radius : Z }.
End AddressRequest.

(** ** The world around the service *)

(** The [init] argument of [fetch]; [body] is the object handed to
    [JSON.stringify]. *)
Module RequestInit.
Record t : Type := mk
  { method : string;
    headers : list (string * string);
    body : AddressRequest.t }.
End RequestInit.

(** A [Response]: [json] is what [response.json()] settles to, a rejection
    or the parsed body, taken to have the shape of [AddressResponse]. *)
Module Response.
Record t : Type := mk
  { ok : bool;
    status : Z;
    json : Js.Thrown + AddressResponse.t }.
End Response.

(** The second argument of [onProgress]. *)
Module ProgressData.
Record t : Type := mk
  { message : option string;
    data : option AddressResponse.t;
    error : option Js.Thrown }.
End ProgressData.

(** What a run does to its surroundings, in the order it does it. *)
Inductive Effect : Type :=
| Progress (step : string) (data : ProgressData.t)
| Timeout (ms : Z)
| Fetch (url : string) (init : RequestInit.t)
| ConsoleError (label : string) (thrown : Js.Thrown).

(** The backend as the client sees it: a promise of [fetch] rejects or
    resolves to a response, and the backend may change with every request
    (it may cache, fail, recover). *)
Definition Network (B : Type) : Type :=
  string -> RequestInit.t -> B -> B * (Js.Thrown + Response.t).

Module World.
Record t (B S : Type) : Type := mk
  { backend : B;
    client : S }.
Arguments mk {B S}.
Arguments backend {B S}.
Arguments client {B S}.
End World.

Inductive Completion (A : Type) : Type :=
| Normal (value : A)
| Throw (thrown : Js.Thrown).
Arguments Normal {A}.
Arguments Throw {A}.

Module Outcome.
Record t (W A : Type) : Type := mk
  { after : W;
    effects : list Effect;
    completion : Completion A }.
Arguments mk {W A}.
Arguments after {W A}.
Arguments effects {W A}.
Arguments completion {W A}.
End Outcome.

Definition Async (B S A : Type) : Type :=
  World.t B S -> Outcome.t (World.t B S) A.

Section AsyncMonad.
Context {B S : Type}.

Definition ret {A : Type} (a : A) : Async B S A :=
  fun w => Outcome.mk w [] (Normal a).

Definition throw {A : Type} (e : Js.Thrown) : Async B S A :=
  fun w => Outcome.mk w [] (Throw e).

Definition bind {A C : Type} (m : Async B S A) (k : A -> Async B S C) : Async B S C :=
  fun w =>
    match m w with
    | Outcome.mk w1 done (Normal a) =>
        match k a w1 with
        | Outcome.mk w2 more c => Outcome.mk w2 (done ++ more) c
        end
    | Outcome.mk w1 done (Throw e) => Outcome.mk w1 done (Throw e)
    end.

(** [try { body } catch (error) { handler }] *)
Definition try_catch {A : Type} (body : Async B S A) (handler : Js.Thrown -> Async B S A)
  : Async B S A :=
  fun w =>
    match body w with
    | Outcome.mk w1 done (Normal a) => Outcome.mk w1 done (Normal a)
    | Outcome.mk w1 done (Throw e) =>
        match handler e w1 with
        | Outcome.mk w2 more c => Outcome.mk w2 (done ++ more) c
        end
    end.

Definition perform (e : Effect) : Async B S unit :=
  fun w => Outcome.mk w [e] (Normal tt).

(** A change of the client's own state. *)
Definition update_client (f : S -> S) : Async B S unit :=
  fun w => Outcome.mk (World.mk (World.backend w) (f (World.client w))) [] (Normal tt).

(** [if (c) throw e;] *)
Definition throw_if (c : bool) (e : Js.Thrown) : Async B S unit :=
  if c then throw e else ret tt.

End AsyncMonad.

Declare Scope async_scope.
Delimit Scope async_scope with async.
Notation "x <- m ;; k" := (bind m (fun x => k))
  (at level 61, m at next level, right associativity) : async_scope.
Notation "m ;; k" := (bind m (fun _ => k))
  (at level 61, right associativity) : async_scope.
Local Open Scope async_scope.

(** ** [src/lib/api.ts]: [AddressService] *)

(** [onProgress?: (step: string, data?: any) => void]. A listener acts on the
    client's state and returns normally, as the one of the hook does. *)
Definition Listener (S : Type) : Type :=
  string -> option ProgressData.t -> S -> S.

Module AddressService.
Section Service.
Context {B S : Type}.
(** [process.env.NEXT_PUBLIC_API_URL], and the network behind [fetch]. *)
Variable NEXT_PUBLIC_API_URL : option string.
Variable network : Network B.

Definition API_BASE_URL : string :=
  Js.or_else NEXT_PUBLIC_API_URL "https://saco-ai-assistant.onrender.com".

(** [await fetch(url, init)] *)
Definition fetch (url : string) (init : RequestInit.t) : Async B S Response.t :=
  fun w =>
    let (b, settled) := network url init (World.backend w) in
    Outcome.mk (World.mk b (World.client w)) [Fetch url init]
      match settled with
      | inl rejected => Throw rejected
      | inr response => Normal response
      end.

(** [await response.json()] *)
Definition json (response : Response.t) : Async B S AddressResponse.t :=
  match Response.json response with
  | inl rejected => throw rejected
  | inr parsed => ret parsed
  end.

(** [await new Promise(resolve => setTimeout(resolve, ms))] *)
Definition sleep (ms : Z) : Async B S unit := perform (Timeout ms).

(** [console.error(label, error)] *)
Definition console_error (label : string) (e : Js.Thrown) : Async B S unit :=
  perform (ConsoleError label e).

(** [onProgress?.(step, data)]: nothing happens without a listener. *)
Definition notify (onProgress : option (Listener S)) (step : string)
  (data : ProgressData.t) : Async B S unit :=
  match onProgress with
  | Some listener =>
      perform (Progress step data) ;;
      update_client (listener step (Some data))
  | None => ret tt
  end.

Definition post (address : string) (radius : Z) : RequestInit.t :=
  RequestInit.mk "POST" [("Content-Type", "application/json")]
    (AddressRequest.mk address radius).

(** [!result.success && result.error] *)
Definition reports_failure (result : AddressResponse.t) : bool :=
  negb (AddressResponse.success result) && Js.truthy (AddressResponse.error result).

(** [if (!result.success && result.error) throw new Error(result.error);] *)
Definition check_success (result : AddressResponse.t) : Async B S unit :=
  throw_if (reports_failure result)
    (Js.Error (Js.message_of (AddressResponse.error result))).

Definition processAddress (address : string) (radius : option Z)
  : Async B S AddressResponse.t :=
  let radius := Js.default_arg 1000 radius in
  try_catch
    (response <- fetch (API_BASE_URL ++ "/process-address")%string (post address radius) ;;
     throw_if (negb (Response.ok response))
       (Js.Error ("HTTP error! status: "
                  ++ Js.string_of_number (Response.status response))%string) ;;
     result <- json response ;;
     (* Check if the API returned success: false *)
     check_success result ;;
     ret result)
    (fun error =>
       console_error "Error processing address:" error ;;
       throw error).

Definition processAddressWithProgress (address : string) (radius : option Z)
  (onProgress : option (Listener S)) : Async B S AddressResponse.t :=
  let radius := Js.default_arg 1000 radius in
  try_catch
    ((* Step 1: Geocoding *)
     notify onProgress "geocoding"
       (ProgressData.mk (Some "Finding coordinates...") None None) ;;
     sleep 1000 ;;
     (* Step 2: Amenities *)
     notify onProgress "amenities"
       (ProgressData.mk (Some "Searching for amenities...") None None) ;;
     sleep 1000 ;;
     (* Step 3: Categorizing *)
     notify onProgress "categorizing"
       (ProgressData.mk (Some "Categorizing amenities...") None None) ;;
     sleep 1000 ;;
     (* Step 4: Analyzing *)
     notify onProgress "analyzing"
       (ProgressData.mk (Some "Generating AI analysis...") None None) ;;
     sleep 800 ;;
     response <- fetch (API_BASE_URL ++ "/process-address")%string (post address radius) ;;
     throw_if (negb (Response.ok response))
       (Js.Error ("HTTP error! status: "
                  ++ Js.string_of_number (Response.status response))%string) ;;
     result <- json response ;;
     (* Check if the API returned success: false *)
     check_success result ;;
     (* Add a small delay to show the analyzing step *)
     sleep 500 ;;
     (* Step 5: Complete *)
     notify onProgress "complete"
       (ProgressData.mk (Some "Complete!") (Some result) None) ;;
     ret result)
    (fun error =>
       console_error "Error processing address:" error ;;
       notify onProgress "error"
         (ProgressData.mk (Some "Error occurred") None (Some error)) ;;
       throw error).

End Service.
End AddressService.

(** ** [src/hooks/useAddressProcessor.ts] *)

Module ProcessingState.
Record t : Type := mk
  { loading : bool;
    result : option AddressResponse.t;
    error : option string;
    currentStep : string;
    progressMessage : string }.
End ProcessingState.

Module useAddressProcessor.

(** The cell of [useState]: the state now, every state it was given from the
    first on, and the lines of [console.log]. *)
Record Store : Type := mkStore
  { state : ProcessingState.t;
    history : list ProcessingState.t;
    console : list (string * string * option string) }.

Definition initial : ProcessingState.t :=
  ProcessingState.mk false None None "" "".

Definition mount : Store := mkStore initial [initial] [].

(** [setState(updater)]; [setState(value)] is the constant updater. *)
Definition setState (updater : ProcessingState.t -> ProcessingState.t) (st : Store)
  : Store :=
  let next := updater (state st) in
  mkStore next (history st ++ [next]) (console st).

Definition console_log (label step : string) (message : option string) (st : Store)
  : Store :=
  mkStore (state st) (history st) (console st ++ [(label, step, message)]).

(** The listener handed to the service:
    [(step, data) => { console.log(...); setState(prev => ({...prev, ...})) }] *)
Definition onProgress : Listener Store :=
  fun step data st =>
    (* data?.message *)
    let message :=
      match data with
      | Some d => ProgressData.message d
      | None => None
      end in
    setState
      (fun prev =>
         ProcessingState.mk
           (ProcessingState.loading prev)
           (ProcessingState.result prev)
           (ProcessingState.error prev)
           step
           (Js.or_else message "Processing..."))
      (console_log "Progress update:" step message st).

Section Hook.
Context {B : Type}.
Variable NEXT_PUBLIC_API_URL : option string.
Variable network : Network B.

Definition processAddress (address : string) (radius : option Z) : Async B Store unit :=
  let radius := Js.default_arg 1000 radius in
  update_client
    (setState (fun _ =>
       ProcessingState.mk true None None "starting" "Starting analysis...")) ;;
  try_catch
    (result <- AddressService.processAddressWithProgress NEXT_PUBLIC_API_URL network
                 address (Some radius) (Some onProgress) ;;
     update_client
       (setState (fun _ =>
          ProcessingState.mk false (Some result) None "complete" "Analysis complete!")))
    (fun error =>
       update_client
         (setState (fun _ =>
            ProcessingState.mk false None
              (Some match error with
                    | Js.Error message => message
                    | Js.NotAnError _ => "An error occurred"
                    end)
              "error" "Error occurred"))).

End Hook.
End useAddressProcessor.

(** ** [src/components/ui/slider.tsx] *)

Module Slider.

(** The value an [<input type="range" min max step>] can report: within the
    bounds and on the grid of steps that starts at [min]. *)
Definition range_input_allows (min max step value : Z) : bool :=
  (min <=? value) && (value <=? max) && ((value - min) mod step =? 0).

(** [handleChange]: [onValueChange?.([parseInt(e.target.value)])], where
    [value] is the number the input's text denotes. *)
Definition handleChange {X : Type} (onValueChange : option (list Z -> X -> X))
  (value : Z) (x : X) : X :=
  let newValue := [value] in
  match onValueChange with
  | Some f => f newValue x
  | None => x
  end.

End Slider.

(** ** [src/components/ui/amenities-bento-grid.tsx] *)

Module AmenityCard.
Section Card.
Context {A : Type}.
Variable items : list A.

Definition itemsPerPage : Z := 8.

Definition totalPages : Z :=
  Js.ceil_div (Z.of_nat (List.length items)) itemsPerPage.

Definition currentItems (currentPage : Z) : list A :=
  Js.slice items (currentPage * itemsPerPage) ((currentPage + 1) * itemsPerPage).

Definition goToPrevious (prev : Z) : Z := Z.max 0 (prev - 1).

Definition goToNext (prev : Z) : Z := Z.min (totalPages - 1) (prev + 1).

Inductive Button : Type := Previous | Next.

(** A click reaches its handler when the button is on the page
    ([totalPages > 1]) and not [disabled]. *)
Definition click (currentPage : Z) (b : Button) : Z :=
  if 1 <? totalPages then
    match b with
    | Previous =>
        if currentPage =? 0 then currentPage else goToPrevious currentPage
    | Next =>
        if currentPage =? totalPages - 1 then currentPage else goToNext currentPage
    end
  else currentPage.

(** The page index after a sequence of clicks, from [useState(0)]. *)
Definition after_clicks (clicks : list Button) : Z :=
  fold_left click clicks 0.

(** The pages the card can show, first to last. *)
Definition pages : list Z :=
  map Z.of_nat (seq 0 (Z.to_nat totalPages)).

End Card.
End AmenityCard.

Module Categories.

(** An entry of an object literal, looked up by its own key. *)
Fixpoint entry (table : list (string * string)) (key : string) : option string :=
  match table with
  | (k, v) :: rest => if String.eqb k key then Some v else entry rest key
  | [] => None
  end.

Definition iconTexts : list (string * string) :=
  [ ("Education", "🎓");
    ("Healthcare", "🏥");
    ("Dining", "🍽️");
    ("Transportation", "⛽");
    ("Banking", "🏦");
    ("Pharmacy", "💊");
    ("Recreation", "🌳");
    ("Shopping", "🛒");
    ("Other", "📍") ].

(** The text of the icon that [getCategoryIcon] renders. *)
Definition getCategoryIcon (category : string) : string :=
  Js.or_else (entry iconTexts category) "📍".

Definition colors : list (string * string) :=
  [ ("Education", "from-blue-600 to-blue-800");
    ("Healthcare", "from-red-600 to-red-800");
    ("Dining", "from-orange-600 to-orange-800");
    ("Transportation", "from-gray-600 to-gray-800");
    ("Banking", "from-green-600 to-green-800");
    ("Pharmacy", "from-pink-600 to-pink-800");
    ("Recreation", "from-emerald-600 to-emerald-800");
    ("Shopping", "from-purple-600 to-purple-800");
    ("Other", "from-slate-600 to-slate-800") ].

Definition getCategoryColor (category : string) : string :=
  Js.or_else (entry colors category) "from-slate-600 to-slate-800".

End Categories.

Module BentoGrid.

(** One [BentoGridItem]: the card in its header, and its width. *)
Record Cell : Type := mkCell
  { category : string;
    items : list Amenity.t;
    className : string }.

Inductive View : Type :=
| NoAmenitiesFound      (* "No amenities found in the specified radius." *)
| Grid (cells : list Cell).

Definition AmenitiesBentoGrid (amenities : AmenityRecord) : View :=
  let categories :=
    filter (fun entry => 0 <? Z.of_nat (List.length (snd entry))) amenities in
  if Z.of_nat (List.length categories) =? 0 then NoAmenitiesFound
  else
    Grid (map (fun entry =>
                 mkCell (fst entry) (snd entry)
                   (if 10 <? Z.of_nat (List.length (snd entry))
                    then "md:col-span-2" else "md:col-span-1"))
            categories).

Definition cells (v : View) : list Cell :=
  match v with
  | NoAmenitiesFound => []
  | Grid cs => cs
  end.

End BentoGrid.

(** ** [src/app/page.tsx]: [AddressProcessor] *)

Module AddressProcessor.

Record State : Type := mk
  { address : string;
    radius : list Z }.

(** [useState('')] and [useState([1000])] *)
Definition initial : State := mk "" [1000].

Definition setAddress (value : string) (st : State) : State :=
  mk value (radius st).

Definition setRadius (value : list Z) (st : State) : State :=
  mk (address st) value.

(** The props of the page's [<Slider>]. *)
Definition slider_min : Z := 100.
Definition slider_max : Z := 5000.
Definition slider_step : Z := 100.

(** What the user does on the page. *)
Inductive Event : Type :=
| AddressInput (value : string)
| SliderInput (value : Z)
| Submit.

(** The slider's events are those of its range input. *)
Definition from_range_input (e : Event) : bool :=
  match e with
  | SliderInput value =>
      Slider.range_input_allows slider_min slider_max slider_step value
  | AddressInput _ | Submit => true
  end.

(** The step the [MultiStepLoader] shows. *)
Definition loaderStep (currentStep : string) : Z :=
  if String.eqb currentStep "geocoding" then 0
  else if String.eqb currentStep "amenities" then 1
  else if String.eqb currentStep "categorizing" then 2
  else if String.eqb currentStep "analyzing" then 3
  else if String.eqb currentStep "complete" then 4
  else 0.

(** [{result.categorized_amenities &&
      Object.keys(result.categorized_amenities).length > 0 && (...)}] *)
Definition amenities_section (result : AddressResponse.t) : option BentoGrid.View :=
  match AddressResponse.categorized_amenities result with
  | Some categorized =>
      if 0 <? Z.of_nat (List.length (map fst categorized))
      then Some (BentoGrid.AmenitiesBentoGrid categorized)
      else None
  | None => None
  end.

(** [{error && (...)}]: the text of the error panel, when it is shown. *)
Definition error_panel (st : ProcessingState.t) : option string :=
  if Js.truthy (ProcessingState.error st) then ProcessingState.error st else None.

Section Page.
Context {B : Type}.
Variable NEXT_PUBLIC_API_URL : option string.
Variable network : Network B.

Definition handleSubmit (st : State) : Async B useAddressProcessor.Store unit :=
  if String.eqb (Js.trim (address st)) "" then ret tt
  else
    useAddressProcessor.processAddress NEXT_PUBLIC_API_URL network
      (address st) (nth_error (radius st) 0).

(** The page under a sequence of events; it gives the page's own state
    after them. *)
Fixpoint handle (events : list Event) (st : State)
  : Async B useAddressProcessor.Store State :=
  match events with
  | [] => ret st
  | AddressInput value :: rest => handle rest (setAddress value st)
  | SliderInput value :: rest =>
      handle rest (Slider.handleChange (Some setRadius) value st)
  | Submit :: rest => handleSubmit st ;; handle rest st
  end.

End Page.
End AddressProcessor.

(** The radii the page's slider can hold. *)
Definition within_slider (value : Z) : Prop := 100 <= value <= 5000.

(** ** Reading a run *)

(** The steps handed to the listener, in order. *)
Definition stages (effects : list Effect) : list string :=
  flat_map (fun e => match e with Progress step _ => [step] | _ => [] end) effects.

(** The requests sent to the backend, in order. *)
Definition requests (effects : list Effect) : list (string * RequestInit.t) :=
  flat_map (fun e => match e with Fetch url init => [(url, init)] | _ => [] end)
    effects.

Definition radii (effects : list Effect) : list Z :=
  map (fun r => AddressRequest.radius (RequestInit.body (snd r))) (requests effects).


(** What [fetch] settles to for the request of a call made in the world [w]. *)
Definition answer {B S : Type} (url : option string) (network : Network B)
  (address : string) (radius : option Z) (w : World.t B S)
  : Js.Thrown + Response.t :=
  snd (network (AddressService.API_BASE_URL url ++ "/process-address")%string
         (AddressService.post address (Js.default_arg 1000 radius))
         (World.backend w)).

(** How the service judges what [fetch] settled to: the lines between the
    request and the [return] of [processAddress], which
    [processAddressWithProgress] repeats. *)
Definition judge (settled : Js.Thrown + Response.t) : Completion AddressResponse.t :=
  match settled with
  | inl rejected => Throw rejected
  | inr response =>
      if Response.ok response then
        match Response.json response with
        | inl rejected => Throw rejected
        | inr body =>
            if AddressService.reports_failure body
            then Throw (Js.Error (Js.message_of (AddressResponse.error body)))
            else Normal body
        end
      else
        Throw (Js.Error ("HTTP error! status: "
                         ++ Js.string_of_number (Response.status response))%string)
  end.

(** The state the hook ends a call in. *)
Definition settled_state (c : Completion AddressResponse.t) : ProcessingState.t :=
  match c with
  | Normal body =>
      ProcessingState.mk false (Some body) None "complete" "Analysis complete!"
  | Throw (Js.Error message) =>
      ProcessingState.mk false None (Some message) "error" "Error occurred"
  | Throw (Js.NotAnError _) =>
      ProcessingState.mk false None (Some "An error occurred") "error" "Error occurred"
  end.

(** The invariant of the hook's state. *)
Definition coherent (s : ProcessingState.t) : Prop :=
  ~ (ProcessingState.result s <> None /\ ProcessingState.error s <> None)
  /\ (ProcessingState.loading s = true ->
      ProcessingState.result s = None /\ ProcessingState.error s = None).

(** The four updates the hook makes to its state: the start of a call, a
    step told by the service, and the two ways a call settles. *)
Inductive update : ProcessingState.t -> ProcessingState.t -> Prop :=
| starts (prev : ProcessingState.t) :
    update prev
      (ProcessingState.mk true None None "starting" "Starting analysis...")
| told (prev : ProcessingState.t) (step : string) (message : option string) :
    update prev
      (ProcessingState.mk
         (ProcessingState.loading prev)
         (ProcessingState.result prev)
         (ProcessingState.error prev)
         step
         (Js.or_else message "Processing..."))
| succeeds (prev : ProcessingState.t) (body : AddressResponse.t) :
    update prev (settled_state (Normal body))
| fails (prev : ProcessingState.t) (thrown : Js.Thrown) :
    update prev (settled_state (Throw thrown)).

(** Each state of the list follows from the one before it. *)
Fixpoint chained {A : Type} (step : A -> A -> Prop) (first : A) (rest : list A)
  : Prop :=
  match rest with
  | [] => True
  | next :: later => step first next /\ chained step next later
  end.

(** No amenity under any key of a categorized result. *)
Definition no_entries (categorized : option AmenityRecord) : bool :=
  match categorized with
  | Some entries => forallb (fun e => Z.of_nat (List.length (snd e)) =? 0) entries
  | None => true
  end.

(** Calls of the hook's [processAddress], one after the other. *)
Fixpoint calls {B : Type} (url : option string) (network : Network B)
  (args : list (string * option Z)) : Async B useAddressProcessor.Store unit :=
  match args with
  | [] => ret tt
  | (address, radius) :: rest =>
      useAddressProcessor.processAddress url network address radius ;;
      calls url network rest
  end.

(** ** Sample data, after the example of the API's README *)

Module Sample.

Definition white_house : Amenity.t :=
  Amenity.mk "White House" "amenity:government" None
    (Some (388977 # 10000, - (770365 # 10000))%Q).


Definition address : string := "1600 Pennsylvania Avenue NW, Washington, DC".

Definition found (query : AddressRequest.t) : AddressResponse.t :=
  AddressResponse.mk true (AddressRequest.address query)
    (Some (Coordinates.mk (388977 # 10000) (- (770365 # 10000))
             "1600 Pennsylvania Avenue NW, Washington, DC 20500, USA"))
    [white_house]
    (Some [("Other", [white_house])])
    (Some "AI analysis of the location...")
    None
    (AddressRequest.radius query).


Definition not_resolved (query : AddressRequest.t) : AddressResponse.t :=
  AddressResponse.mk false (AddressRequest.address query) None [] None None
    (Some "Address not found")
    (AddressRequest.radius query).

(** A backend that answers every query with [answer] and remembers the
    queries it has served. *)
Definition serving (answer : AddressRequest.t -> AddressResponse.t)
  : Network (list AddressRequest.t) :=
  fun _ init served =>
    (served ++ [RequestInit.body init],
     inr (Response.mk true 200 (inr (answer (RequestInit.body init))))).

(** A listener that writes down the steps it is told. *)
Definition recorder : Listener (list string) :=
  fun step _ seen => seen ++ [step].

Definition fresh : World.t (list AddressRequest.t) (list string) :=
  World.mk [] [].

Definition mounted : World.t (list AddressRequest.t) useAddressProcessor.Store :=
  World.mk [] useAddressProcessor.mount.

End Sample.


(** ** [src/lib/api.ts]: the two queries of [AddressService]

    [getAmenityTypes] and [healthCheck] are the same three lines around a
    [fetch] without options; the body they return is any JSON value. *)

Module Query.

Record Response (J : Type) : Type := mkResponse
  { ok : bool;
    status : Z;
    json : Js.Thrown + J }.
Arguments mkResponse {J}.
Arguments ok {J}.
Arguments status {J}.
Arguments json {J}.

Inductive Effect : Type :=
| Get (url : string)
| ConsoleError (label : string) (thrown : Js.Thrown).

Record Outcome (B J : Type) : Type := mkOutcome
  { after : B;
    effects : list Effect;
    completion : Completion J }.
Arguments mkOutcome {B J}.
Arguments after {B J}.
Arguments effects {B J}.
Arguments completion {B J}.

Definition Network (B J : Type) : Type :=
  string -> B -> B * (Js.Thrown + Response J).

Section Queries.
Context {B J : Type}.
Variable NEXT_PUBLIC_API_URL : option string.
Variable network : Network B J.

(** [try { const response = await fetch(url); return await response.json(); }
     catch (error) { console.error(label, error); throw error; }] *)
Definition get (path label : string) (backend : B) : Outcome B J :=
  let url := (AddressService.API_BASE_URL NEXT_PUBLIC_API_URL ++ path)%string in
  let (b, settled) := network url backend in
  let attempt :=
    match settled with
    | inl rejected => Throw rejected
    | inr response =>
        match json response with
        | inl rejected => Throw rejected
        | inr parsed => Normal parsed
        end
    end in
  match attempt with
  | Normal parsed => mkOutcome b [Get url] (Normal parsed)
  | Throw error => mkOutcome b [Get url; ConsoleError label error] (Throw error)
  end.

Definition getAmenityTypes : B -> Outcome B J :=
  get "/amenity-types" "Error fetching amenity types:".

Definition healthCheck : B -> Outcome B J :=
  get "/health" "Error checking health:".

End Queries.
End Query.

(** ** [amenities-bento-grid.tsx]: what a card shows *)

Module CardText.







(** Below the list: the two buttons around ["{currentPage + 1} / {totalPages}"]
    when there is more than one page, else ["All {items.length} items shown"]. *)
Inductive Footer : Type :=
| Controls (previous_disabled : bool) (page : Z) (total : Z) (next_disabled : bool)
| AllShown (count : Z).

Definition footer {A : Type} (items : list A) (currentPage : Z) : Footer :=
  if AmenityCard.totalPages items >? 1 then
    Controls (currentPage =? 0)
      (currentPage + 1) (AmenityCard.totalPages items)
      (currentPage =? AmenityCard.totalPages items - 1)
  else AllShown (Z.of_nat (List.length items)).



End CardText.

(** ** [src/app/page.tsx]: the figures of the location details *)

Module LocationDetails.

(** [Object.values(result.categorized_amenities)
       .reduce((total, items) => total + items.length, 0)], or 0 without a
    categorized result. *)
Definition totalAmenities (result : AddressResponse.t) : Z :=
  match AddressResponse.categorized_amenities result with
  | Some categorized =>
      fold_left (fun total items => total + Z.of_nat (List.length items))
        (map snd categorized) 0
  | None => 0
  end.

(** [Object.keys(result.categorized_amenities).length], or 0. *)
Definition categories (result : AddressResponse.t) : Z :=
  match AddressResponse.categorized_amenities result with
  | Some categorized => Z.of_nat (List.length (map fst categorized))
  | None => 0
  end.

End LocationDetails.

(** ** More readings of a run *)







(** * Properties *)

(** ** The model at work *)

Example trim_address : Js.trim "  350 5th Ave, New York  " = "350 5th Ave, New York".
Proof. reflexivity. Qed.

Example status_text : Js.string_of_number 503 = "503".
Proof. reflexivity. Qed.

Example second_page_of_ten :
  AmenityCard.currentItems [1; 2; 3; 4; 5; 6; 7; 8; 9; 10] 1 = [9; 10].
Proof. reflexivity. Qed.

(** The handler of Next alone would leave the range on a card without items;
    such a card has one page at most and shows no button, so a click changes
    nothing. *)
Example next_on_an_empty_card :
  AmenityCard.goToNext (@nil Amenity.t) 0 = -1
  /\ AmenityCard.click (@nil Amenity.t) 0 AmenityCard.Next = 0.
Proof. split; reflexivity. Qed.

Example pharmacy_has_its_own_icon_and_colour :
  Categories.getCategoryIcon "Pharmacy" = "💊"
  /\ Categories.getCategoryColor "Pharmacy" = "from-pink-600 to-pink-800"
  /\ Categories.getCategoryIcon "Government" = Categories.getCategoryIcon "Other".
Proof. repeat split. Qed.

Example a_run_that_finds_the_white_house :
  let run :=
    AddressService.processAddressWithProgress None (Sample.serving Sample.found)
      Sample.address None (Some Sample.recorder) Sample.fresh in
  World.client (Outcome.after run)
  = ["geocoding"; "amenities"; "categorizing"; "analyzing"; "complete"]
  /\ World.backend (Outcome.after run) = [AddressRequest.mk Sample.address 1000]
  /\ Outcome.completion run
     = Normal (Sample.found (AddressRequest.mk Sample.address 1000)).
Proof. vm_compute. repeat split. Qed.

Example the_hook_on_an_unresolved_address :
  let run :=
    useAddressProcessor.processAddress None (Sample.serving Sample.not_resolved)
      Sample.address (Some 1000) Sample.mounted in
  useAddressProcessor.state (World.client (Outcome.after run))
  = ProcessingState.mk false None (Some "Address not found") "error" "Error occurred"
  /\ Outcome.completion run = Normal tt.
Proof. vm_compute. split; reflexivity. Qed.

Example a_blank_address_is_not_submitted :
  requests
    (Outcome.effects
       (AddressProcessor.handle None (Sample.serving Sample.found)
          [AddressProcessor.AddressInput "   "; AddressProcessor.Submit]
          AddressProcessor.initial Sample.mounted)) = [].
Proof. reflexivity. Qed.

(** ** Runs of the service *)

(** Running a computation: the monad, the service and the hook are unfolded
    and the records they build are projected, by need, so that no state is
    copied; strings and numbers are left as they are. *)
Ltac run :=
  lazy beta iota zeta delta
    [ ret throw bind try_catch perform update_client throw_if
      AddressService.processAddressWithProgress AddressService.processAddress
      AddressService.notify AddressService.sleep AddressService.fetch
      AddressService.json AddressService.check_success
      AddressService.console_error
      useAddressProcessor.processAddress useAddressProcessor.onProgress
      useAddressProcessor.setState useAddressProcessor.console_log
      useAddressProcessor.state useAddressProcessor.history
      useAddressProcessor.console
      World.backend World.client
      Outcome.after Outcome.effects Outcome.completion
      Response.ok Response.status Response.json
      ProgressData.message ProgressData.data ProgressData.error
      ProcessingState.loading ProcessingState.result ProcessingState.error
      Js.default_arg answer judge settled_state fst snd negb ].

(** Case analysis on what the backend answers, down to the test the service
    makes on the body. *)
Ltac by_answer network :=
  try match goal with
      | w : World.t _ _ |- _ => destruct w
      end;
  run;
  match goal with
  | |- context [network ?u ?i ?b] =>
      destruct (network u i b) as [? [? | [[] ? [? | ?body]]]]
  end;
  run;
  try match goal with
  | |- context [AddressService.reports_failure ?body] =>
      destruct (AddressService.reports_failure body)
  end;
  run.

Lemma reports_failure_iff (body : AddressResponse.t) :
  AddressService.reports_failure body = true <->
  AddressResponse.success body = false
  /\ exists message, AddressResponse.error body = Some message /\ message <> "".
Proof.
  unfold AddressService.reports_failure, Js.truthy.
  rewrite andb_true_iff, negb_true_iff. split.
  - intros [Hs He]. split; [assumption|].
    destruct (AddressResponse.error body) as [message|]; [|discriminate].
    exists message. split; [reflexivity|].
    intros ->. discriminate He.
  - intros [Hs [message [-> Hne]]]. split; [assumption|].
    apply negb_true_iff, String.eqb_neq. exact Hne.
Qed.

Section ServiceRuns.
Context {B S : Type}.
Variable url : option string.
Variable network : Network B.
Variables (address : string) (radius : option Z).

Lemma completion_plain (w : World.t B S) :
  Outcome.completion (AddressService.processAddress url network address radius w)
  = judge (answer url network address radius w).
Proof.
  by_answer network; reflexivity.
Qed.

Lemma completion_with_progress (onProgress : option (Listener S)) (w : World.t B S) :
  Outcome.completion
    (AddressService.processAddressWithProgress url network address radius
       onProgress w)
  = judge (answer url network address radius w).
Proof.
  destruct onProgress; by_answer network; reflexivity.
Qed.

(** With a listener, a run hands it the four stages and then the step that
    tells how the run ended. *)
Lemma stages_with_listener (listener : Listener S) (w : World.t B S) :
  stages (Outcome.effects
            (AddressService.processAddressWithProgress url network address radius
               (Some listener) w))
  = ["geocoding"; "amenities"; "categorizing"; "analyzing";
     match judge (answer url network address radius w) with
     | Normal _ => "complete"
     | Throw _ => "error"
     end].
Proof.
  by_answer network; reflexivity.
Qed.

Lemma stages_without_listener (w : World.t B S) :
  stages (Outcome.effects
            (AddressService.processAddressWithProgress url network address radius
               None w)) = [].
Proof.
  by_answer network; reflexivity.
Qed.

(** Every run sends one request, with the address and the radius it was
    given. *)
Lemma requests_with_progress (onProgress : option (Listener S)) (w : World.t B S) :
  requests (Outcome.effects
              (AddressService.processAddressWithProgress url network address radius
                 onProgress w))
  = [((AddressService.API_BASE_URL url ++ "/process-address")%string,
      AddressService.post address (Js.default_arg 1000 radius))].
Proof.
  destruct onProgress; by_answer network; reflexivity.
Qed.

Lemma requests_plain (w : World.t B S) :
  requests (Outcome.effects
              (AddressService.processAddress url network address radius w))
  = [((AddressService.API_BASE_URL url ++ "/process-address")%string,
      AddressService.post address (Js.default_arg 1000 radius))].
Proof.
  by_answer network; reflexivity.
Qed.

End ServiceRuns.

(** What [judge] lets through is the body of an ok response. *)
Lemma judge_normal (settled : Js.Thrown + Response.t) (body : AddressResponse.t) :
  judge settled = Normal body <->
  exists response,
    settled = inr response
    /\ Response.ok response = true
    /\ Response.json response = inr body
    /\ AddressService.reports_failure body = false.
Proof.
  unfold judge. split.
  - destruct settled as [rejected | response]; [discriminate|].
    destruct (Response.ok response) eqn:Hok; [|discriminate].
    destruct (Response.json response) as [rejected | parsed] eqn:Hjson; [discriminate|].
    destruct (AddressService.reports_failure parsed) eqn:Hf; [discriminate|].
    intros H. injection H as <-. exists response. auto.
  - intros [response (-> & -> & -> & ->)]. reflexivity.
Qed.

(** ** The service *)

(** C8. [AddressService.processAddress] returns the parsed response exactly
    when the HTTP response is ok and the body does not have [success] false
    together with a non-empty [error] string; in every other case it throws.
    In particular a body with [success] false and a missing or empty [error]
    is returned to the caller as if the call had succeeded. *)
Theorem processAddress_returns_exactly_when (B S : Type) (url : option string)
    (network : Network B) (address : string) (radius : option Z) (w : World.t B S) :
  let run := AddressService.processAddress url network address radius w in
  let settled :=
    snd (network (AddressService.API_BASE_URL url ++ "/process-address")%string
           (AddressService.post address (Js.default_arg 1000 radius))
           (World.backend w)) in
  (forall body,
      Outcome.completion run = Normal body <->
      exists response,
        settled = inr response
        /\ Response.ok response = true
        /\ Response.json response = inr body
        /\ ~ (AddressResponse.success body = false
              /\ exists message,
                   AddressResponse.error body = Some message /\ message <> ""))
  /\ ((forall body, Outcome.completion run <> Normal body) ->
      exists thrown, Outcome.completion run = Throw thrown)
  /\ (forall response body,
        settled = inr response ->
        Response.ok response = true ->
        Response.json response = inr body ->
        AddressResponse.success body = false ->
        AddressResponse.error body = None \/ AddressResponse.error body = Some "" ->
        Outcome.completion run = Normal body).
Proof.
  intros run settled. subst run. rewrite completion_plain.
  change (answer url network address radius w) with settled.
  split; [|split].
  - intros body. rewrite judge_normal.
    split; intros [response (E & Hok & Hjson & Hf)]; exists response;
      repeat (split; [assumption|]).
    + rewrite <- reports_failure_iff, Hf. discriminate.
    + rewrite <- reports_failure_iff in Hf.
      destruct (AddressService.reports_failure body); [|reflexivity].
      exfalso. apply Hf. reflexivity.
  - intros never. destruct (judge settled) as [body | thrown].
    + exfalso. apply (never body). reflexivity.
    + exists thrown. reflexivity.
  - intros response body E Hok Hjson Hs He. apply judge_normal.
    exists response. repeat (split; [assumption|]).
    unfold AddressService.reports_failure.
    destruct He as [-> | ->]; rewrite Hs; reflexivity.
Qed.


(** C6, as the specification words it, fails: the second event of every run
    with a listener carries the stage [amenities], which is not one of
    geocoding, searching, categorizing, summarizing, complete, failed. *)
Lemma published_stage_outside_the_specified_enumeration :
  ~ Forall
      (fun step =>
         In step ["geocoding"; "searching"; "categorizing"; "summarizing";
                  "complete"; "failed"])
      (stages (Outcome.effects
                 (AddressService.processAddressWithProgress None
                    (Sample.serving Sample.found) Sample.address (Some 1000)
                    (Some Sample.recorder) Sample.fresh))).
Proof.
  intros H. vm_compute in H.
  apply Forall_inv_tail, Forall_inv in H.
  repeat destruct H as [H | H]; try discriminate H. exact H.
Qed.

(** C6, amended. Every progress event published during a run carries one of
    the six steps geocoding, amenities, categorizing, analyzing, complete,
    error. *)
Theorem published_stages_are_the_six_steps (B S : Type) (url : option string)
    (network : Network B) (onProgress : option (Listener S)) (address : string)
    (radius : option Z) (w : World.t B S) :
  Forall
    (fun step =>
       In step ["geocoding"; "amenities"; "categorizing"; "analyzing";
                "complete"; "error"])
    (stages (Outcome.effects
               (AddressService.processAddressWithProgress url network address
                  radius onProgress w))).
Proof.
  destruct onProgress as [listener|].
  - rewrite stages_with_listener.
    destruct (judge _);
      repeat (apply Forall_cons;
              [cbn [In]; repeat first [left; reflexivity | right]|]);
      apply Forall_nil.
  - rewrite stages_without_listener. constructor.
Qed.

(** C1, as stated, fails: a second call with the same address and radius,
    right after the first, is not answered from a cache of the front end. It
    again publishes the four stages before [complete] and again sends a
    request. *)
Lemma second_call_repeats_the_whole_run :
  let call :=
    AddressService.processAddressWithProgress None (Sample.serving Sample.found)
      Sample.address (Some 1000) (Some Sample.recorder) in
  let second := call (Outcome.after (call Sample.fresh)) in
  ~ (stages (Outcome.effects second) = ["complete"]
     /\ requests (Outcome.effects second) = []).
Proof.
  vm_compute. intros [H _]. discriminate H.
Qed.

(** C1, amended. A second call with the same address and radius behaves as
    the first: it publishes geocoding, amenities, categorizing and analyzing,
    sends one request with the address and the radius to the backend, and
    ends with [complete], returning the body the backend sent, or with
    [error]. *)
Theorem second_call_runs_like_the_first (B S : Type) (url : option string)
    (network : Network B) (listener : Listener S) (address : string)
    (radius : option Z) (w : World.t B S) :
  let call :=
    AddressService.processAddressWithProgress url network address radius
      (Some listener) in
  let second := call (Outcome.after (call w)) in
  let endpoint := (AddressService.API_BASE_URL url ++ "/process-address")%string in
  let init := AddressService.post address (Js.default_arg 1000 radius) in
  requests (Outcome.effects second) = [(endpoint, init)]
  /\ stages (Outcome.effects second)
     = ["geocoding"; "amenities"; "categorizing"; "analyzing";
        match Outcome.completion second with
        | Normal _ => "complete"
        | Throw _ => "error"
        end]
  /\ forall body,
       Outcome.completion second = Normal body ->
       exists response,
         snd (network endpoint init (World.backend (Outcome.after (call w))))
         = inr response
         /\ Response.json response = inr body.
Proof.
  intros call second endpoint init. subst call second.
  rewrite requests_with_progress, stages_with_listener, completion_with_progress.
  split; [reflexivity|]. split; [reflexivity|].
  intros body H. apply judge_normal in H.
  destruct H as [response (E & _ & Hjson & _)]. exists response.
  split; [exact E | exact Hjson].
Qed.

(** ** Runs of the hook *)

Lemma coherent_loading (step message : string) :
  coherent (ProcessingState.mk true None None step message).
Proof.
  split; cbn.
  - intros [H _]. apply H. reflexivity.
  - intros _. split; reflexivity.
Qed.

Lemma coherent_settled (c : Completion AddressResponse.t) :
  coherent (settled_state c).
Proof.
  destruct c as [body | [message | shown]]; split; cbn;
    try (intros H; discriminate H).
  - intros [_ H]. apply H. reflexivity.
  - intros [H _]. apply H. reflexivity.
  - intros [H _]. apply H. reflexivity.
Qed.

Create HintDb hook.
#[local] Hint Resolve coherent_loading coherent_settled : hook.

Section HookRuns.
Context {B : Type}.
Variable url : option string.
Variable network : Network B.
Variables (address : string) (radius : option Z).

(** The hook catches whatever the service throws. *)
Lemma hook_completes (w : World.t B useAddressProcessor.Store) :
  Outcome.completion
    (useAddressProcessor.processAddress url network address radius w) = Normal tt.
Proof.
  by_answer network; reflexivity.
Qed.

Lemma hook_settles (w : World.t B useAddressProcessor.Store) :
  useAddressProcessor.state
    (World.client
       (Outcome.after
          (useAddressProcessor.processAddress url network address radius w)))
  = settled_state (judge (answer url network address radius w)).
Proof.
  by_answer network; try reflexivity.
  all: match goal with thrown : Js.Thrown |- _ => destruct thrown end;
    reflexivity.
Qed.

(** The states a call goes through: [starting], the five steps told by the
    service, and the state it settles in. *)
Lemma hook_history (w : World.t B useAddressProcessor.Store) :
  useAddressProcessor.history
    (World.client
       (Outcome.after
          (useAddressProcessor.processAddress url network address radius w)))
  = useAddressProcessor.history (World.client w)
    ++ [ ProcessingState.mk true None None "starting" "Starting analysis...";
         ProcessingState.mk true None None "geocoding" "Finding coordinates...";
         ProcessingState.mk true None None "amenities" "Searching for amenities...";
         ProcessingState.mk true None None "categorizing" "Categorizing amenities...";
         ProcessingState.mk true None None "analyzing" "Generating AI analysis...";
         match judge (answer url network address radius w) with
         | Normal _ => ProcessingState.mk true None None "complete" "Complete!"
         | Throw _ => ProcessingState.mk true None None "error" "Error occurred"
         end;
         settled_state (judge (answer url network address radius w)) ].
Proof.
  by_answer network; rewrite <- ?app_assoc; try reflexivity.
  all: match goal with thrown : Js.Thrown |- _ => destruct thrown end;
    reflexivity.
Qed.

Lemma hook_requests (w : World.t B useAddressProcessor.Store) :
  requests
    (Outcome.effects
       (useAddressProcessor.processAddress url network address radius w))
  = [((AddressService.API_BASE_URL url ++ "/process-address")%string,
      AddressService.post address (Js.default_arg 1000 radius))].
Proof.
  by_answer network; reflexivity.
Qed.


Lemma hook_keeps_coherence (w : World.t B useAddressProcessor.Store) :
  Forall coherent (useAddressProcessor.history (World.client w)) ->
  Forall coherent
    (useAddressProcessor.history
       (World.client
          (Outcome.after
             (useAddressProcessor.processAddress url network address radius w)))).
Proof.
  intros H. rewrite hook_history. apply Forall_app. split; [exact H|].
  destruct (judge _);
    repeat (apply Forall_cons; [auto with hook|]); apply Forall_nil.
Qed.

End HookRuns.

Lemma after_bind (B S A C : Type) (m : Async B S A) (k : A -> Async B S C)
    (w : World.t B S) (a : A) :
  Outcome.completion (m w) = Normal a ->
  Outcome.after (bind m k w) = Outcome.after (k a (Outcome.after (m w))).
Proof.
  unfold bind. destruct (m w) as [w1 done c]. cbn. intros ->.
  destruct (k a w1). reflexivity.
Qed.

Lemma calls_keep_coherence (B : Type) (url : option string) (network : Network B)
    (args : list (string * option Z)) :
  forall w : World.t B useAddressProcessor.Store,
    Forall coherent (useAddressProcessor.history (World.client w))
    /\ coherent (useAddressProcessor.state (World.client w)) ->
    Forall coherent
      (useAddressProcessor.history
         (World.client (Outcome.after (calls url network args w))))
    /\ coherent
         (useAddressProcessor.state
            (World.client (Outcome.after (calls url network args w)))).
Proof.
  induction args as [|[address radius] rest IH]; intros w H.
  - exact H.
  - cbn [calls]. rewrite (after_bind _ _ _ _ _ _ _ tt (hook_completes _ _ _ _ w)).
    apply IH. split.
    + apply hook_keeps_coherence, H.
    + rewrite hook_settles. apply coherent_settled.
Qed.

(** C10. In every state reachable through the hook's [processAddress], from
    the initial state through every progress update to both terminal
    outcomes, [result] and [error] are never both non-null, and whenever
    [loading] is true both are null. *)
Theorem hook_states_are_coherent (B : Type) (url : option string)
    (network : Network B) (args : list (string * option Z)) (backend : B) :
  let store :=
    World.client
      (Outcome.after
         (calls url network args (World.mk backend useAddressProcessor.mount))) in
  Forall coherent (useAddressProcessor.history store)
  /\ coherent (useAddressProcessor.state store).
Proof.
  apply calls_keep_coherence. cbn.
  assert (start : coherent useAddressProcessor.initial).
  { split; cbn.
    - intros [H _]. apply H. reflexivity.
    - intros H. discriminate H. }
  split; [apply Forall_cons; [exact start | apply Forall_nil] | exact start].
Qed.

(** C4, as stated, fails for the service: when the backend reports that the
    address was not resolved, [AddressService.processAddress] returns no value
    to its caller but throws a plain [Error]. *)
Lemma unresolved_address_is_thrown :
  let run :=
    AddressService.processAddress None (Sample.serving Sample.not_resolved)
      Sample.address (Some 1000) Sample.fresh in
  ~ (exists value, Outcome.completion run = Normal value)
  /\ Outcome.completion run = Throw (Js.Error "Address not found").
Proof.
  vm_compute. split; [|reflexivity].
  intros [value H]. discriminate H.
Qed.

(** C4, amended. The service surfaces a terminal failure by throwing: what
    [fetch] or [json] rejected with, an [Error] with the HTTP status, or an
    [Error] with the error text of the backend. The hook catches every throw
    of the service: its [processAddress] completes normally and surfaces the
    failure in its state, [loading] false, [result] null and [error] the
    message of the thrown [Error]. *)
Theorem failure_is_thrown_by_the_service_and_kept_by_the_hook (B : Type)
    (url : option string) (network : Network B) (address : string)
    (radius : option Z) (w : World.t B useAddressProcessor.Store) :
  let settled :=
    snd (network (AddressService.API_BASE_URL url ++ "/process-address")%string
           (AddressService.post address (Js.default_arg 1000 radius))
           (World.backend w)) in
  let service := AddressService.processAddress url network address radius w in
  let hook := useAddressProcessor.processAddress url network address radius w in
  (forall rejected,
      settled = inl rejected -> Outcome.completion service = Throw rejected)
  /\ (forall response,
        settled = inr response ->
        Response.ok response = false ->
        Outcome.completion service
        = Throw (Js.Error ("HTTP error! status: "
                           ++ Js.string_of_number (Response.status response))%string))
  /\ (forall response rejected,
        settled = inr response ->
        Response.ok response = true ->
        Response.json response = inl rejected ->
        Outcome.completion service = Throw rejected)
  /\ (forall response body message,
        settled = inr response ->
        Response.ok response = true ->
        Response.json response = inr body ->
        AddressResponse.success body = false ->
        AddressResponse.error body = Some message ->
        message <> "" ->
        Outcome.completion service = Throw (Js.Error message))
  /\ Outcome.completion hook = Normal tt
  /\ (forall thrown,
        Outcome.completion service = Throw thrown ->
        useAddressProcessor.state (World.client (Outcome.after hook))
        = ProcessingState.mk false None
            (Some match thrown with
                  | Js.Error message => message
                  | Js.NotAnError _ => "An error occurred"
                  end)
            "error" "Error occurred").
Proof.
  intros settled service hook. subst service hook.
  rewrite completion_plain, hook_completes, hook_settles.
  change (answer url network address radius w) with settled.
  repeat split.
  - intros rejected ->. reflexivity.
  - intros response -> Hok. cbn. rewrite Hok. reflexivity.
  - intros response rejected -> Hok Hjson. cbn. rewrite Hok, Hjson. reflexivity.
  - intros response body message -> Hok Hjson Hs He Hne. cbn.
    rewrite Hok, Hjson.
    assert (Hf : AddressService.reports_failure body = true).
    { apply reports_failure_iff. split; [assumption|]. exists message. auto. }
    rewrite Hf, He. reflexivity.
  - intros thrown ->. destruct thrown; reflexivity.
Qed.

(** ** Overlapping calls

    A second call may start before the first has settled. Whatever the order
    in which their updates reach the state, each of them keeps it coherent. *)

Lemma every_update_keeps_coherence (before after : ProcessingState.t) :
  update before after -> coherent before -> coherent after.
Proof.
  intros step H.
  destruct step as [prev | prev step message | prev body | prev thrown].
  - apply coherent_loading.
  - exact H.
  - apply (coherent_settled (Normal body)).
  - apply (coherent_settled (Throw thrown)).
Qed.

Ltac tell step message :=
  match goal with
  | |- update ?prev _ => exact (told prev step (Some message))
  end.

(** The updates of a call are of these four kinds. *)
Lemma hook_updates_are_updates (B : Type) (url : option string)
    (network : Network B) (address : string) (radius : option Z)
    (w : World.t B useAddressProcessor.Store) :
  exists added,
    useAddressProcessor.history
      (World.client
         (Outcome.after
            (useAddressProcessor.processAddress url network address radius w)))
    = useAddressProcessor.history (World.client w) ++ added
    /\ forall before,
         chained update before added.
Proof.
  eexists. split; [apply hook_history|].
  intros before. cbn [chained].
  split; [apply starts|].
  split; [tell "geocoding" "Finding coordinates..."|].
  split; [tell "amenities" "Searching for amenities..."|].
  split; [tell "categorizing" "Categorizing amenities..."|].
  split; [tell "analyzing" "Generating AI analysis..."|].
  destruct (judge (answer url network address radius w)) as [body | thrown].
  - split; [tell "complete" "Complete!"|].
    split; [apply (succeeds _ body) | exact I].
  - split; [tell "error" "Error occurred"|].
    split; [apply (fails _ thrown) | exact I].
Qed.

(** ** The page *)

Lemma effects_bind (B S A C : Type) (m : Async B S A) (k : A -> Async B S C)
    (w : World.t B S) :
  Outcome.effects (bind m k w)
  = match Outcome.completion (m w) with
    | Normal a => Outcome.effects (m w) ++ Outcome.effects (k a (Outcome.after (m w)))
    | Throw _ => Outcome.effects (m w)
    end.
Proof.
  unfold bind. destruct (m w) as [w1 done [a | e]]; [|reflexivity].
  cbn. destruct (k a w1). reflexivity.
Qed.

Lemma radii_app (before after : list Effect) :
  radii (before ++ after) = radii before ++ radii after.
Proof.
  unfold radii, requests. rewrite flat_map_app, map_app. reflexivity.
Qed.

Lemma range_input_within (value : Z) :
  Slider.range_input_allows AddressProcessor.slider_min AddressProcessor.slider_max
    AddressProcessor.slider_step value = true ->
  within_slider value.
Proof.
  unfold Slider.range_input_allows, within_slider, AddressProcessor.slider_min,
    AddressProcessor.slider_max.
  rewrite !andb_true_iff, !Z.leb_le. tauto.
Qed.

Section PageRuns.
Context {B : Type}.
Variable url : option string.
Variable network : Network B.

(** A submission sends the first element of the slider's state, or the
    default of the hook when there is none. *)
Lemma submit_radii (st : AddressProcessor.State)
    (w : World.t B useAddressProcessor.Store) :
  Forall within_slider (AddressProcessor.radius st) ->
  Forall within_slider
    (radii (Outcome.effects (AddressProcessor.handleSubmit url network st w))).
Proof.
  intros H. unfold AddressProcessor.handleSubmit.
  destruct (String.eqb _ _); [constructor|].
  unfold radii. rewrite hook_requests. cbn.
  constructor; [|constructor].
  destruct (AddressProcessor.radius st) as [|first rest]; cbn.
  - unfold within_slider. lia.
  - apply (Forall_inv H).
Qed.

Lemma page_radii (events : list AddressProcessor.Event) :
  Forall (fun e => AddressProcessor.from_range_input e = true) events ->
  forall (st : AddressProcessor.State) (w : World.t B useAddressProcessor.Store),
    Forall within_slider (AddressProcessor.radius st) ->
    Forall within_slider
      (radii (Outcome.effects (AddressProcessor.handle url network events st w))).
Proof.
  induction 1 as [|event rest allowed _ IH]; intros st w H.
  - constructor.
  - destruct event as [value | value |]; cbn [AddressProcessor.handle].
    + apply IH. exact H.
    + apply IH. cbn. constructor; [|constructor].
      apply range_input_within, allowed.
    + rewrite effects_bind.
      destruct (Outcome.completion _); [|apply submit_radii, H].
      rewrite radii_app. apply Forall_app. split.
      * apply submit_radii, H.
      * apply IH, H.
Qed.

End PageRuns.

(** C3, as stated, fails for the service: called with a radius of 50 it
    sends 50 to the backend, neither clamped nor rejected. *)
Lemma service_sends_a_radius_below_the_minimum :
  ~ Forall (fun r => 100 <= r <= 10000)
      (radii (Outcome.effects
                (AddressService.processAddress None (Sample.serving Sample.found)
                   Sample.address (Some 50) Sample.fresh))).
Proof.
  vm_compute. intros H. apply Forall_inv in H. destruct H as [H _]. apply H. reflexivity.
Qed.

(** C3, amended. The service sends the radius it is given, unchanged; the
    radius is bounded on the page, which submits the state of its slider:
    1000 at first and then a value of the range input (min 100, max 5000,
    step 100). Every radius sent from the page is therefore within
    [100, 5000]. *)
Theorem page_sends_a_radius_within_the_slider_bounds (B : Type)
    (url : option string) (network : Network B)
    (events : list AddressProcessor.Event) (address : string) (radius : option Z)
    (w : World.t B useAddressProcessor.Store) :
  Forall (fun e => AddressProcessor.from_range_input e = true) events ->
  Forall (fun r => 100 <= r <= 5000)
    (radii (Outcome.effects
              (AddressProcessor.handle url network events AddressProcessor.initial w)))
  /\ radii (Outcome.effects
              (AddressService.processAddress url network address radius w))
     = [Js.default_arg 1000 radius]
  /\ radii (Outcome.effects
              (useAddressProcessor.processAddress url network address radius w))
     = [Js.default_arg 1000 radius].
Proof.
  intros allowed. split; [|split].
  - apply (page_radii url network events allowed). cbn.
    constructor; [|constructor]. unfold within_slider. lia.
  - unfold radii. rewrite requests_plain. reflexivity.
  - unfold radii. rewrite hook_requests. reflexivity.
Qed.

(** The bound at work: the slider is moved to its ends and the address is
    submitted after each move. *)
Lemma page_sends_a_radius_within_the_slider_bounds_witness :
  let events :=
    [ AddressProcessor.SliderInput 5000;
      AddressProcessor.AddressInput Sample.address;
      AddressProcessor.Submit;
      AddressProcessor.SliderInput 100;
      AddressProcessor.Submit ] in
  let w := Sample.mounted in
  let network := Sample.serving Sample.found in
  Forall (fun e => AddressProcessor.from_range_input e = true) events
  /\ (Forall (fun r => 100 <= r <= 5000)
        (radii (Outcome.effects
                  (AddressProcessor.handle None network events
                     AddressProcessor.initial w)))
      /\ radii (Outcome.effects
                  (AddressService.processAddress None network Sample.address
                     (Some 2500) w))
         = [2500]
      /\ radii (Outcome.effects
                  (useAddressProcessor.processAddress None network Sample.address
                     (Some 2500) w))
         = [2500]).
Proof.
  cbv zeta. split.
  - repeat constructor.
  - apply (page_sends_a_radius_within_the_slider_bounds _ None
             (Sample.serving Sample.found) _ Sample.address (Some 2500)
             Sample.mounted).
    repeat constructor.
Defined.

(** ** An empty result *)



(** ** The cards *)

Lemma ceil_div_covers (n : Z) : n <= 8 * Js.ceil_div n 8.
Proof.
  unfold Js.ceil_div.
  pose proof (Z.mul_div_le (- n) 8 ltac:(lia)). lia.
Qed.

(** With [ceil_div_covers]: [ceil_div n 8] is the least number of pages of 8
    that hold [n] items. *)
Lemma ceil_div_least (n : Z) : 8 * (Js.ceil_div n 8 - 1) < n.
Proof.
  unfold Js.ceil_div.
  pose proof (Z.mul_succ_div_gt (- n) 8 ltac:(lia)). lia.
Qed.

Lemma ceil_div_nonneg (n : Z) : 0 <= n -> 0 <= Js.ceil_div n 8.
Proof.
  intros H. unfold Js.ceil_div.
  assert ((- n) / 8 <= 0) by (apply Z.div_le_upper_bound; lia). lia.
Qed.

(** Between two indices in order, [slice] is [firstn] after [skipn]. *)
Lemma slice_firstn_skipn (A : Type) (l : list A) (from upto : nat) :
  (from <= upto)%nat ->
  Js.slice l (Z.of_nat from) (Z.of_nat upto) = firstn (upto - from) (skipn from l).
Proof.
  intros H. unfold Js.slice, Js.relative_index.
  destruct (Z.ltb_spec (Z.of_nat from) 0); [lia|].
  destruct (Z.ltb_spec (Z.of_nat upto) 0); [lia|].
  set (n := List.length l).
  replace (Z.to_nat (Z.min (Z.of_nat from) (Z.of_nat n)))
    with (Nat.min from n) by lia.
  replace (Z.to_nat (Z.min (Z.of_nat upto) (Z.of_nat n)
                     - Z.min (Z.of_nat from) (Z.of_nat n)))
    with (Nat.min upto n - Nat.min from n)%nat by lia.
  destruct (Nat.le_gt_cases n from) as [short | inside].
  - rewrite (skipn_all2 l short), (Nat.min_r from) by exact short.
    subst n. rewrite skipn_all. now rewrite !firstn_nil.
  - rewrite (Nat.min_l from) by lia.
    destruct (Nat.le_gt_cases n upto) as [beyond | within].
    + rewrite Nat.min_r by exact beyond.
      rewrite !firstn_all2; try reflexivity; rewrite length_skipn; subst n; lia.
    + rewrite Nat.min_l by lia. reflexivity.
Qed.

Lemma firstn_next (A : Type) (l : list A) (from upto : nat) :
  (from <= upto)%nat ->
  firstn from l ++ firstn (upto - from) (skipn from l) = firstn upto l.
Proof.
  revert l upto. induction from as [|from IH]; intros l upto H.
  - cbn. now rewrite Nat.sub_0_r.
  - destruct upto as [|upto]; [lia|].
    destruct l as [|x l]; [now rewrite skipn_nil, !firstn_nil|].
    cbn. f_equal. apply IH. lia.
Qed.

Section CardPages.
Context {A : Type}.
Variable items : list A.

(** The first [k] pages, one after the other, are the first [8 k] items. *)
Lemma first_pages (k : nat) :
  List.concat (map (AmenityCard.currentItems items) (map Z.of_nat (seq 0 k)))
  = firstn (8 * k) items.
Proof.
  induction k as [|k IH]; [reflexivity|].
  rewrite seq_S, !map_app, concat_app, IH. cbn [map List.concat Nat.add].
  rewrite app_nil_r. unfold AmenityCard.currentItems, AmenityCard.itemsPerPage.
  replace (Z.of_nat k * 8) with (Z.of_nat (8 * k)) by lia.
  replace ((Z.of_nat k + 1) * 8) with (Z.of_nat (8 * S k)) by lia.
  rewrite slice_firstn_skipn by lia. apply firstn_next. lia.
Qed.

Lemma pages_cover :
  List.concat (map (AmenityCard.currentItems items) (AmenityCard.pages items)) = items.
Proof.
  unfold AmenityCard.pages. rewrite first_pages. apply firstn_all2.
  unfold AmenityCard.totalPages, AmenityCard.itemsPerPage.
  pose proof (ceil_div_covers (Z.of_nat (List.length items))).
  pose proof (ceil_div_nonneg (Z.of_nat (List.length items)) ltac:(lia)).
  lia.
Qed.

Lemma totalPages_nonneg : 0 <= AmenityCard.totalPages items.
Proof.
  apply ceil_div_nonneg. lia.
Qed.

Lemma click_in_range (page : Z) (b : AmenityCard.Button) :
  0 <= page <= Z.max 0 (AmenityCard.totalPages items - 1) ->
  0 <= AmenityCard.click items page b <= Z.max 0 (AmenityCard.totalPages items - 1).
Proof.
  intros H. unfold AmenityCard.click, AmenityCard.goToPrevious, AmenityCard.goToNext.
  destruct (Z.ltb_spec 1 (AmenityCard.totalPages items)); [|exact H].
  destruct b.
  - destruct (Z.eqb_spec page 0); lia.
  - destruct (Z.eqb_spec page (AmenityCard.totalPages items - 1)); lia.
Qed.

Lemma clicks_in_range (clicks : list AmenityCard.Button) :
  forall page,
    0 <= page <= Z.max 0 (AmenityCard.totalPages items - 1) ->
    0 <= fold_left (AmenityCard.click items) clicks page
      <= Z.max 0 (AmenityCard.totalPages items - 1).
Proof.
  induction clicks as [|b rest IH]; intros page H; [exact H|].
  cbn. apply IH, click_in_range, H.
Qed.

End CardPages.

(** C9. For every category card with n items the current page stays within
    [0, max(0, ceil(n/8) - 1)] under any sequence of Previous and Next clicks:
    Previous clamps at 0 and Next at the last page, and on a card that has
    items the two handlers keep the page in range by themselves. The slices of
    8 items, taken over all pages in order, make up exactly the list of items:
    no item is dropped or shown twice. *)
Theorem pagination_stays_in_range_and_loses_nothing (A : Type) (items : list A)
    (clicks : list AmenityCard.Button) :
  let last_page := Z.max 0 (Js.ceil_div (Z.of_nat (List.length items)) 8 - 1) in
  0 <= AmenityCard.after_clicks items clicks <= last_page
  /\ AmenityCard.goToPrevious 0 = 0
  /\ (forall page, 0 <= AmenityCard.goToPrevious page)
  /\ (forall page, AmenityCard.goToNext items page
                   <= Js.ceil_div (Z.of_nat (List.length items)) 8 - 1)
  /\ AmenityCard.click items 0 AmenityCard.Previous = 0
  /\ AmenityCard.click items last_page AmenityCard.Next = last_page
  /\ List.concat (map (AmenityCard.currentItems items) (AmenityCard.pages items)) = items
  /\ (items <> [] ->
      forall page,
        0 <= page <= last_page ->
        0 <= AmenityCard.goToPrevious page <= last_page
        /\ 0 <= AmenityCard.goToNext items page <= last_page).
Proof.
  intros last_page. subst last_page.
  change (Js.ceil_div (Z.of_nat (List.length items)) 8)
    with (AmenityCard.totalPages items).
  pose proof (totalPages_nonneg items) as T.
  split; [|split; [|split; [|split; [|split; [|split; [|split]]]]]].
  - apply clicks_in_range. lia.
  - reflexivity.
  - intros page. unfold AmenityCard.goToPrevious. lia.
  - intros page. unfold AmenityCard.goToNext. lia.
  - unfold AmenityCard.click, AmenityCard.goToPrevious.
    destruct (1 <? _); reflexivity.
  - unfold AmenityCard.click, AmenityCard.goToNext.
    destruct (Z.ltb_spec 1 (AmenityCard.totalPages items)); [|reflexivity].
    rewrite Z.max_r by lia. now rewrite Z.eqb_refl.
  - apply pages_cover.
  - intros some page H.
    assert (1 <= AmenityCard.totalPages items).
    { pose proof (ceil_div_covers (Z.of_nat (List.length items))).
      unfold AmenityCard.totalPages, AmenityCard.itemsPerPage.
      destruct items; [contradiction|]. cbn [List.length] in *. lia. }
    unfold AmenityCard.goToPrevious, AmenityCard.goToNext. lia.
Qed.

(** ** The categories *)



Lemma grid_cells (amenities : AmenityRecord) :
  map (fun cell => (BentoGrid.category cell, BentoGrid.items cell))
    (BentoGrid.cells (BentoGrid.AmenitiesBentoGrid amenities))
  = filter (fun entry => 0 <? Z.of_nat (List.length (snd entry))) amenities.
Proof.
  unfold BentoGrid.AmenitiesBentoGrid.
  destruct (filter _ amenities) as [|first rest]; [reflexivity|].
  cbn [List.length Z.of_nat Z.eqb BentoGrid.cells]. rewrite map_map. cbn.
  rewrite <- surjective_pairing. f_equal.
  rewrite <- (map_id rest) at 2. apply map_ext. intros []. reflexivity.
Qed.

Lemma empty_entries_hold_nothing (amenities : AmenityRecord) :
  List.concat (map snd
            (filter (fun entry => 0 <? Z.of_nat (List.length (snd entry))) amenities))
  = List.concat (map snd amenities).
Proof.
  induction amenities as [|[key items] rest IH]; [reflexivity|].
  cbn. destruct items as [|item items]; cbn; [exact IH|].
  now rewrite IH.
Qed.



(** * Further properties of the code *)

(** ** The service *)





(** ** The hook *)

Lemma requests_app (before after : list Effect) :
  requests (before ++ after) = requests before ++ requests after.
Proof.
  unfold requests. apply flat_map_app.
Qed.

(** X5. Calls made one after the other send one request each, in the order
    of the calls, with the address and the radius of the call (1000 when it
    is left out). A call that fails does not keep a later one from being
    sent. *)
Theorem calls_send_one_request_each (B : Type) (url : option string)
    (network : Network B) (args : list (string * option Z))
    (w : World.t B useAddressProcessor.Store) :
  requests (Outcome.effects (calls url network args w))
  = map (fun call =>
           ((AddressService.API_BASE_URL url ++ "/process-address")%string,
            AddressService.post (fst call) (Js.default_arg 1000 (snd call))))
      args.
Proof.
  revert w. induction args as [|[address radius] rest IH]; intros w.
  - reflexivity.
  - cbn [calls map fst snd]. rewrite effects_bind, hook_completes.
    rewrite requests_app, hook_requests, IH. reflexivity.
Qed.

(** X6. The step the loader shows never goes back while a call succeeds: its
    updates show the steps 0, 0, 1, 2, 3, 4, 4. When the call fails the loader
    falls back from step 3 to step 0, the step it shows for [error]. *)
Theorem loader_steps_of_a_call (B : Type) (url : option string)
    (network : Network B) (address : string) (radius : option Z)
    (w : World.t B useAddressProcessor.Store) :
  let run := useAddressProcessor.processAddress url network address radius w in
  exists added,
    useAddressProcessor.history (World.client (Outcome.after run))
    = useAddressProcessor.history (World.client w) ++ added
    /\ map (fun s => AddressProcessor.loaderStep (ProcessingState.currentStep s))
         added
       = match Outcome.completion
                 (AddressService.processAddress url network address radius w)
         with
         | Normal _ => [0; 0; 1; 2; 3; 4; 4]
         | Throw _ => [0; 0; 1; 2; 3; 0; 0]
         end.
Proof.
  cbv zeta. rewrite hook_history, completion_plain.
  eexists. split; [reflexivity|].
  destruct (judge _) as [body | [message | shown]]; reflexivity.
Qed.


(** X8. The state a call settles in is decided by the backend alone: started
    from any two states of the hook over the same backend, a call ends in the
    same state and leaves the backend the same. Nothing of what the hook held
    before remains. *)
Theorem the_settled_state_forgets_the_past (B : Type) (url : option string)
    (network : Network B) (address : string) (radius : option Z) (backend : B)
    (one other : useAddressProcessor.Store) :
  let run store :=
    Outcome.after
      (useAddressProcessor.processAddress url network address radius
         (World.mk backend store)) in
  useAddressProcessor.state (World.client (run one))
  = useAddressProcessor.state (World.client (run other))
  /\ World.backend (run one) = World.backend (run other).
Proof.
  cbv beta zeta. rewrite !hook_settles. split; [reflexivity|].
  by_answer network; reflexivity.
Qed.

(** X9. The error panel of the page shows the message of every failure but
    one: when what was thrown is an [Error] with an empty message, the hook
    holds [error] as the empty string, which is falsy, and the page shows
    neither a result nor an error. A thrown value that is no [Error] is shown
    as ['An error occurred']. *)
Theorem what_the_error_panel_shows (B : Type) (url : option string)
    (network : Network B) (address : string) (radius : option Z)
    (w : World.t B useAddressProcessor.Store) :
  let state :=
    useAddressProcessor.state
      (World.client
         (Outcome.after
            (useAddressProcessor.processAddress url network address radius w))) in
  match Outcome.completion
          (AddressService.processAddress url network address radius w)
  with
  | Normal body =>
      AddressProcessor.error_panel state = None
      /\ ProcessingState.result state = Some body
  | Throw thrown =>
      ProcessingState.result state = None
      /\ AddressProcessor.error_panel state
         = match thrown with
           | Js.Error message =>
               if String.eqb message "" then None else Some message
           | Js.NotAnError _ => Some "An error occurred"
           end
  end.
Proof.
  cbv zeta. rewrite hook_settles, completion_plain.
  destruct (judge _) as [body | [message | shown]]; cbn; try (split; reflexivity).
  split; [reflexivity|].
  unfold AddressProcessor.error_panel. cbn.
  destruct (String.eqb message ""); reflexivity.
Qed.

(** ** The page *)











(** ** What a card shows *)














(** ** The pages of a card *)

Section MorePages.
Context {A : Type}.
Variable items : list A.

Let n : Z := Z.of_nat (List.length items).

Lemma page_is_firstn_skipn (k : nat) :
  AmenityCard.currentItems items (Z.of_nat k) = firstn 8 (skipn (8 * k) items).
Proof.
  unfold AmenityCard.currentItems, AmenityCard.itemsPerPage.
  replace (Z.of_nat k * 8) with (Z.of_nat (8 * k)) by lia.
  replace ((Z.of_nat k + 1) * 8) with (Z.of_nat (8 * k + 8)) by lia.
  rewrite slice_firstn_skipn by lia. f_equal. lia.
Qed.

Lemma page_length (k : nat) :
  Z.of_nat (List.length (AmenityCard.currentItems items (Z.of_nat k)))
  = Z.min 8 (Z.max 0 (n - 8 * Z.of_nat k)).
Proof.
  rewrite page_is_firstn_skipn, length_firstn, length_skipn. subst n. lia.
Qed.

Lemma totalPages_bounds :
  8 * (AmenityCard.totalPages items - 1) < n <= 8 * AmenityCard.totalPages items.
Proof.
  unfold AmenityCard.totalPages, AmenityCard.itemsPerPage. split.
  - apply ceil_div_least.
  - apply ceil_div_covers.
Qed.

End MorePages.

(** X13. Every page of a card before the last shows exactly 8 items, the
    last page shows between 1 and 8, namely the rest, and a page past the last
    shows nothing: no page of a card is empty. *)
Theorem every_page_is_full_but_the_last (A : Type) (items : list A) (k : nat) :
  let shown :=
    Z.of_nat (List.length (AmenityCard.currentItems items (Z.of_nat k))) in
  let last := AmenityCard.totalPages items - 1 in
  (Z.of_nat k < last -> shown = 8)
  /\ (Z.of_nat k = last ->
      shown = Z.of_nat (List.length items) - 8 * last /\ 1 <= shown <= 8)
  /\ (last < Z.of_nat k -> AmenityCard.currentItems items (Z.of_nat k) = []).
Proof.
  intros shown last. subst shown last.
  pose proof (page_length items k) as len.
  pose proof (totalPages_bounds items) as [least covers].
  split; [|split]; intros H.
  - lia.
  - lia.
  - apply length_zero_iff_nil. lia.
Qed.

(** X14. The item at index [i] of a card's list is the one shown at position
    [i mod 8] of page [i / 8], and that page is one of the card's pages when
    the list has an item at [i]. *)
Theorem where_an_item_is_shown (A : Type) (items : list A) (i : nat) :
  nth_error (AmenityCard.currentItems items (Z.of_nat i / 8)) (i mod 8)
  = nth_error items i
  /\ ((i < List.length items)%nat ->
      0 <= Z.of_nat i / 8 < AmenityCard.totalPages items).
Proof.
  split.
  - replace (Z.of_nat i / 8) with (Z.of_nat (i / 8))
      by (rewrite Nat2Z.inj_div; reflexivity).
    rewrite page_is_firstn_skipn, nth_error_firstn.
    pose proof (Nat.mod_upper_bound i 8 ltac:(discriminate)) as bound.
    destruct (Nat.ltb_spec (i mod 8) 8); [|lia].
    rewrite nth_error_skipn. f_equal.
    pose proof (Nat.div_mod_eq i 8). lia.
  - intros inside.
    pose proof (totalPages_bounds items) as [least covers].
    split.
    + apply Z.div_pos; lia.
    + apply Z.div_lt_upper_bound; lia.
Qed.

(** X15. The foot of a card tells the truth. With at most 8 items it reads
    "All n items shown" and the card, which then has no buttons, shows the
    whole list. With more it reads "k / t", where t is the number of pages and
    1 <= k <= t after any clicks, Previous is disabled exactly on page 1, Next
    exactly on page t, and never both. *)
Theorem the_foot_of_a_card (A : Type) (items : list A)
    (clicks : list AmenityCard.Button) :
  let page := AmenityCard.after_clicks items clicks in
  match CardText.footer items page with
  | CardText.AllShown count =>
      count = Z.of_nat (List.length items)
      /\ (List.length items <= 8)%nat
      /\ AmenityCard.currentItems items page = items
  | CardText.Controls previous_disabled k t next_disabled =>
      (8 < List.length items)%nat
      /\ t = AmenityCard.totalPages items
      /\ 1 <= k <= t
      /\ (previous_disabled = true <-> k = 1)
      /\ (next_disabled = true <-> k = t)
      /\ (previous_disabled = false \/ next_disabled = false)
  end.
Proof.
  intros page.
  pose proof (totalPages_bounds items) as [least covers].
  pose proof (clicks_in_range items clicks 0) as range.
  fold (AmenityCard.after_clicks items clicks) in range. fold page in range.
  unfold CardText.footer.
  destruct (Z.gtb_spec (AmenityCard.totalPages items) 1) as [many | one].
  - specialize (range ltac:(lia)).
    split; [lia|]. split; [reflexivity|]. split; [lia|].
    split; [rewrite Z.eqb_eq; lia|]. split; [rewrite Z.eqb_eq; lia|].
    destruct (Z.eqb_spec page 0); [right | left; reflexivity].
    apply Z.eqb_neq. lia.
  - specialize (range ltac:(lia)).
    assert (page = 0) as -> by lia.
    split; [reflexivity|]. split; [lia|].
    change 0 with (Z.of_nat 0). rewrite page_is_firstn_skipn. cbn [Nat.mul skipn].
    apply firstn_all2. lia.
Qed.

(** ** The grid and the figures beside it *)

Lemma grid_cells_map (amenities : AmenityRecord) :
  BentoGrid.cells (BentoGrid.AmenitiesBentoGrid amenities)
  = map (fun entry =>
           BentoGrid.mkCell (fst entry) (snd entry)
             (if 10 <? Z.of_nat (List.length (snd entry))
              then "md:col-span-2" else "md:col-span-1"))
      (filter (fun entry => 0 <? Z.of_nat (List.length (snd entry))) amenities).
Proof.
  unfold BentoGrid.AmenitiesBentoGrid.
  destruct (filter _ amenities) as [|first rest]; reflexivity.
Qed.

Lemma no_entries_filter (amenities : AmenityRecord) :
  no_entries (Some amenities) = true
  <-> filter (fun entry => 0 <? Z.of_nat (List.length (snd entry))) amenities = [].
Proof.
  cbn [no_entries]. induction amenities as [|[key items] rest IH]; cbn.
  - split; reflexivity.
  - destruct items as [|item items]; cbn.
    + exact IH.
    + split; discriminate.
Qed.

Lemma grid_notice_iff (amenities : AmenityRecord) :
  BentoGrid.AmenitiesBentoGrid amenities = BentoGrid.NoAmenitiesFound
  <-> no_entries (Some amenities) = true.
Proof.
  rewrite no_entries_filter. unfold BentoGrid.AmenitiesBentoGrid.
  destruct (filter _ amenities) as [|first rest]; cbn; split;
    try reflexivity; discriminate.
Qed.

Lemma grid_cells_not_empty (amenities : AmenityRecord) :
  Forall (fun cell => BentoGrid.items cell <> [])
    (BentoGrid.cells (BentoGrid.AmenitiesBentoGrid amenities)).
Proof.
  rewrite grid_cells_map. apply Forall_map, Forall_forall.
  intros [key items] H. apply filter_In in H as [_ H]. cbn in H |- *.
  destruct items; [discriminate H | discriminate].
Qed.

(** X16. The grid never shows an empty card. It shows the notice "No
    amenities found in the specified radius." exactly when no key of the
    categorized result has an amenity; otherwise every cell holds at least
    one amenity, there are no more cells than keys, and a cell is two columns
    wide exactly when it holds more than 10 amenities, in which case its card
    has more than one page. *)
Theorem the_grid_shows_no_empty_card (amenities : AmenityRecord) :
  let view := BentoGrid.AmenitiesBentoGrid amenities in
  (view = BentoGrid.NoAmenitiesFound <-> no_entries (Some amenities) = true)
  /\ Forall (fun cell => BentoGrid.items cell <> []) (BentoGrid.cells view)
  /\ (List.length (BentoGrid.cells view) <= List.length amenities)%nat
  /\ Forall (fun cell =>
               (BentoGrid.className cell = "md:col-span-2"
                <-> (10 < List.length (BentoGrid.items cell))%nat)
               /\ (BentoGrid.className cell = "md:col-span-2" ->
                   1 < AmenityCard.totalPages (BentoGrid.items cell)))
       (BentoGrid.cells view).
Proof.
  intros view. subst view. split; [|split; [|split]].
  - apply grid_notice_iff.
  - apply grid_cells_not_empty.
  - rewrite grid_cells_map, length_map. apply filter_length_le.
  - rewrite grid_cells_map. apply Forall_map, Forall_forall.
    intros [key items] _. cbn [BentoGrid.className BentoGrid.items fst snd].
    pose proof (totalPages_bounds items) as [least covers].
    destruct (Z.ltb_spec 10 (Z.of_nat (List.length items))); split;
      try (intros _; lia); try (split; [intros _; lia | reflexivity]).
    + split; [discriminate | lia].
    + discriminate.
Qed.

Lemma total_from (lists : list (list Amenity.t)) (start : Z) :
  fold_left (fun total items => total + Z.of_nat (List.length items)) lists start
  = start + Z.of_nat (List.length (List.concat lists)).
Proof.
  revert start. induction lists as [|items rest IH]; intros start; cbn.
  - lia.
  - rewrite IH, length_app. lia.
Qed.

(** X17. The figure "Total Amenities Found" agrees with the grid below it: it
    is the number of amenities the cards hold together, and it is 0 exactly
    when there is no card. The figure "Categories" counts every key, with or
    without amenities, so it is at least the number of cards. *)
Theorem the_figures_agree_with_the_grid (result : AddressResponse.t) :
  match AddressResponse.categorized_amenities result with
  | Some categorized =>
      let cards := BentoGrid.cells (BentoGrid.AmenitiesBentoGrid categorized) in
      LocationDetails.totalAmenities result
      = Z.of_nat (List.length (List.concat (map BentoGrid.items cards)))
      /\ (LocationDetails.totalAmenities result = 0 <-> cards = [])
      /\ Z.of_nat (List.length cards) <= LocationDetails.categories result
  | None =>
      LocationDetails.totalAmenities result = 0
      /\ LocationDetails.categories result = 0
  end.
Proof.
  unfold LocationDetails.totalAmenities, LocationDetails.categories.
  destruct (AddressResponse.categorized_amenities result) as [categorized|];
    [|split; reflexivity].
  cbv zeta. rewrite total_from, Z.add_0_l.
  assert (same : List.concat
                   (map BentoGrid.items
                      (BentoGrid.cells (BentoGrid.AmenitiesBentoGrid categorized)))
                 = List.concat (map snd categorized)).
  { rewrite <- empty_entries_hold_nothing, <- grid_cells, map_map. reflexivity. }
  split; [now rewrite same|]. split.
  - rewrite <- same.
    pose proof (grid_cells_not_empty categorized) as full.
    destruct (BentoGrid.cells (BentoGrid.AmenitiesBentoGrid categorized))
      as [|cell rest]; [split; reflexivity|].
    apply Forall_inv in full. split; [|discriminate].
    cbn. rewrite length_app. destruct (BentoGrid.items cell); [contradiction|].
    cbn. lia.
  - rewrite grid_cells_map, !length_map. apply inj_le, filter_length_le.
Qed.

(** X18. For a categorized result without keys the page shows no amenities
    section at all, not even the grid's notice: the notice can appear only
    when the result has keys and every one of them is empty. A grid that is
    shown is never empty. *)
Theorem when_the_section_is_shown (result : AddressResponse.t) :
  let categorized := AddressResponse.categorized_amenities result in
  (AddressProcessor.amenities_section result = None
   <-> categorized = None \/ categorized = Some [])
  /\ (AddressProcessor.amenities_section result = Some BentoGrid.NoAmenitiesFound
      <-> exists entries,
            categorized = Some entries
            /\ entries <> []
            /\ no_entries (Some entries) = true)
  /\ forall shown,
       AddressProcessor.amenities_section result = Some (BentoGrid.Grid shown) ->
       shown <> [].
Proof.
  cbv zeta. unfold AddressProcessor.amenities_section.
  destruct (AddressResponse.categorized_amenities result) as [[|entry rest]|].
  - cbn. split; [|split].
    + split; [intros _; right; reflexivity | reflexivity].
    + split; [discriminate|]. intros [entries (E & some & _)].
      injection E as <-. contradiction.
    + discriminate.
  - replace (0 <? Z.of_nat (List.length (map fst (entry :: rest)))) with true
      by (symmetry; apply Z.ltb_lt; cbn [List.length map]; lia).
    split; [|split].
    + split; [discriminate | intros [H | H]; discriminate H].
    + split.
      * intros H. injection H as H. apply grid_notice_iff in H.
        exists (entry :: rest).
        split; [reflexivity|]. split; [discriminate | exact H].
      * intros [entries (E & _ & H)]. injection E as <-.
        apply grid_notice_iff in H. now rewrite H.
    + intros shown H. injection H as H. intros ->.
      unfold BentoGrid.AmenitiesBentoGrid in H.
      destruct (filter _ (entry :: rest)); discriminate H.
  - split; [|split].
    + split; [intros _; left; reflexivity | reflexivity].
    + split; [discriminate|]. intros [entries (E & _)]. discriminate E.
    + discriminate.
Qed.

(** ** The descriptions and the queries *)



Lemma get_outcome (B J : Type) (url : option string)
    (network : Query.Network B J) (path label : string) (backend : B) :
  let run := Query.get url network path label backend in
  let settled :=
    snd (network (AddressService.API_BASE_URL url ++ path)%string backend) in
  (forall body,
      Query.completion run = Normal body <->
      exists response, settled = inr response /\ Query.json response = inr body)
  /\ (forall thrown,
        Query.completion run = Throw thrown <->
        settled = inl thrown
        \/ exists response,
             settled = inr response /\ Query.json response = inl thrown)
  /\ Query.effects run
     = Query.Get (AddressService.API_BASE_URL url ++ path)%string
       :: match Query.completion run with
          | Normal _ => []
          | Throw thrown => [Query.ConsoleError label thrown]
          end.
Proof.
  cbv zeta. unfold Query.get.
  destruct (network _ backend) as [b [rejected | response]]; cbn [snd].
  - cbn. split; [|split; [|reflexivity]].
    + intros body. split; [discriminate|].
      intros [response [H _]]. discriminate H.
    + intros thrown. split.
      * intros H. injection H as <-. left. reflexivity.
      * intros [H | [response [H _]]]; [|discriminate H].
        injection H as <-. reflexivity.
  - destruct (Query.json response) as [rejected | parsed] eqn:E; cbn.
    + split; [|split; [|reflexivity]].
      * intros body. split; [discriminate|].
        intros [response' [H H']]. injection H as <-. congruence.
      * intros thrown. split.
        -- intros H. injection H as <-. right. exists response. auto.
        -- intros [H | [response' [H H']]]; [discriminate H|].
           injection H as <-. congruence.
    + split; [|split; [|reflexivity]].
      * intros body. split.
        -- intros H. injection H as <-. exists response. auto.
        -- intros [response' [H H']]. injection H as <-. congruence.
      * intros thrown. split; [discriminate|].
        intros [H | [response' [H H']]]; [discriminate H|].
        injection H as <-. congruence.
Qed.

(** X20. [healthCheck] and [getAmenityTypes] do not look at the HTTP status:
    they return the parsed body of any response whose body parses, also of one
    that is not ok, and throw only what [fetch] or [json()] rejected with,
    after one [console.error] of it. Each sends one GET, to [/health] and to
    [/amenity-types] under the base URL. *)
Theorem the_queries_ignore_the_status (B J : Type) (url : option string)
    (network : Query.Network B J) (backend : B) :
  let base := AddressService.API_BASE_URL url in
  let outcome path label run :=
    (forall body,
        Query.completion run = Normal body <->
        exists response,
          snd (network (base ++ path)%string backend) = inr response
          /\ Query.json response = inr body)
    /\ (forall thrown,
          Query.completion run = Throw thrown <->
          snd (network (base ++ path)%string backend) = inl thrown
          \/ exists response,
               snd (network (base ++ path)%string backend) = inr response
               /\ Query.json response = inl thrown)
    /\ Query.effects run
       = Query.Get (base ++ path)%string
         :: match Query.completion run with
            | Normal _ => []
            | Throw thrown => [Query.ConsoleError label thrown]
            end in
  outcome "/health" "Error checking health:" (Query.healthCheck url network backend)
  /\ outcome "/amenity-types" "Error fetching amenity types:"
       (Query.getAmenityTypes url network backend).
Proof.
  cbv beta zeta. split.
  - apply (get_outcome B J url network "/health" "Error checking health:").
  - apply (get_outcome B J url network "/amenity-types"
             "Error fetching amenity types:").
Qed.
